(** * Euro IT Accounts: ledger synchronisation and financial aggregation

    A shallow embedding of the bookkeeping core of the application:
    - [types.ts]: the entities [Client], [Payment], [Expense], [AppData];
    - the [Clients] and [Dashboard] components ([src/unnamed/part_000]) and
      [components/Reports.tsx]: the aggregation functions;
    - [lib/supabaseClient.ts] and [services/dataService.ts]: the
      persistence adapter (local storage or the remote Supabase backend);
    - [App.tsx]: the optimistic mutation coordinator.

    Conventions of the embedding.
    - A JavaScript [number] holding an amount is an integer of [Z]: on
      integers of the safe range JavaScript addition and subtraction are
      exact.  Ratios ([margin]) and number formatting are not embedded.
    - A JavaScript string is a [string]; relational operators on strings
      compare code units, which is [String.compare] on ASCII text such as
      ISO dates.
    - An optional field is an [option]; [None] stands for an absent,
      [undefined] or [null] field.
    - Arrays and [AppData] objects live in a heap and are shared by
      reference, since the source pushes onto and sorts arrays in place.
    - The remote backend is any function from the history of requests to
      a reply [{ data, error }]; [createClient] is taken to return a
      client, and a request to resolve rather than reject, as the source
      reads its result.
    - An [async] handler runs to completion before the next event. *)

From Stdlib Require Import ZArith Lia Bool Permutation Ascii String.
From stdpp Require Import base list strings.

Local Open Scope string_scope.
Local Open Scope list_scope.
Local Open Scope Z_scope.
Set Default Proof Using "Type".

(** ** Data model ([types.ts]) *)

Inductive PaymentType := RECEIVED | REFUND.

Module Client.
Record t := mk {
  id : string;
  name : string;
  email : string;
  phone : string;
  company : option string;
  notes : option string;
  createdAt : Z;
  isActive : option bool;
  totalBilled : option Z
}.
End Client.

Module Payment.
Record t := mk {
  id : string;
  clientId : string;
  amount : Z;
  date : string;
  description : option string;
  method : option string;
  details : option string;
  type : option PaymentType
}.
End Payment.

Module Expense.
Record t := mk {
  id : string;
  category : string;
  amount : Z;
  date : string;
  description : string
}.
End Expense.

Record AppData := mkAppData {
  clients : list Client.t;
  payments : list Payment.t;
  expenses : list Expense.t
}.

Definition emptyData : AppData := mkAppData [] [] [].

(** ** JavaScript idioms used by the source *)

(** [x || 0] on an optional number. *)
Definition or_zero (x : option Z) : Z :=
  match x with Some v => v | None => 0 end.

(** [s || d] on an optional string: the empty string is falsy too. *)
Definition or_string (s : option string) (d : string) : string :=
  match s with
  | Some v => if String.eqb v "" then d else v
  | None => d
  end.

(** [p.type === 'REFUND'] *)
Definition isRefund (p : Payment.t) : bool :=
  match Payment.type p with Some REFUND => true | _ => false end.

(** [a <= b] and [a >= b] on strings. *)
Definition str_le (a b : string) : bool :=
  match String.compare a b with Gt => false | _ => true end.
Definition str_ge (a b : string) : bool := str_le b a.

(** [xs.reduce((sum, x) => sum + f(x), 0)] *)
Definition sumBy {A} (f : A -> Z) (xs : list A) : Z :=
  fold_left (fun sum x => sum + f x) xs 0.

(** [xs.reduce((acc, p) => p.type === 'REFUND' ? acc - p.amount : acc + p.amount, 0)] *)
Definition signedSum (ps : list Payment.t) : Z :=
  fold_left (fun acc p => if isRefund p then acc - Payment.amount p
                          else acc + Payment.amount p) ps 0.

(** [xs.find(pred)] is [List.find]; [xs.filter(pred)] is [List.filter];
    [xs.map(f)] is [List.map]. *)

(** A stable sort by a comparator, as [Array.prototype.sort(cmp)]:
    [after a b] is [true] when the comparator's result for [(a, b)] is
    positive, that is when [a] has to come after [b]. *)
Section Sort.
Context {A : Type} (after : A -> A -> bool).

Fixpoint sort_insert (x : A) (l : list A) : list A :=
  match l with
  | [] => [x]
  | y :: l' => if after x y then y :: sort_insert x l' else x :: l
  end.

Definition sortBy (l : list A) : list A :=
  fold_right sort_insert [] l.
End Sort.

(** ** Normalisation at the read boundary ([dataService.fetchData])

    [c => ({...c, isActive: c.isActive !== false})] *)
Definition normalizeClient (c : Client.t) : Client.t :=
  Client.mk (Client.id c) (Client.name c) (Client.email c) (Client.phone c)
            (Client.company c) (Client.notes c) (Client.createdAt c)
            (Some (match Client.isActive c with Some false => false | _ => true end))
            (Client.totalBilled c).

(** ** Per-client financials ([getClientFinancials] of the [Clients] component) *)



(** ** Dashboard statistics ([stats] of the [Dashboard] component) *)




(** [expenseCategoryData]: a JavaScript object used as a map keeps its keys
    in insertion order; [bump k v] is [m[k] = (m[k] || 0) + v]. *)
Fixpoint bump (k : string) (v : Z) (m : list (string * Z)) : list (string * Z) :=
  match m with
  | [] => [(k, 0 + v)]
  | (k', w) :: m' => if String.eqb k' k then (k', w + v) :: m' else (k', w) :: bump k v m'
  end.

Definition expenseCategoryData (data : AppData) : list (string * Z) :=
  fold_left (fun categories e => bump (Expense.category e) (Expense.amount e) categories)
            (expenses data) [].

(** ** Reports ([components/Reports.tsx]) *)

Record Filters := mkFilters {
  startDate : string;
  endDate : string;
  selectedClientId : string;
  methodFilter : string
}.

Module Report.
Record ClientContext := mkContext {
  name : string;
  company : option string;
  totalBilled : Z;
  totalPaidAllTime : Z;
  currentDue : Z
}.

Record t := mk {
  payments : list Payment.t;
  expenses : list Expense.t;
  totalReceived : Z;
  totalRefunded : Z;
  netIncome : Z;
  totalExpenses : Z;
  netProfit : Z;
  clientContext : option ClientContext;
  methodBreakdown : list (string * Z)
}.
End Report.

Record TotalsRow := mkTotals {
  debit : Z;
  credit : Z
}.

Section Reports.
(** [String.prototype.localeCompare] belongs to the host: only the sign of
    its result is used, by the sorts. *)
Variable localeCompare : string -> string -> Z.

(** [(a, b) => a.date.localeCompare(b.date)] and
    [(a, b) => a.name.localeCompare(b.name)] *)
Definition paymentAfter (a b : Payment.t) : bool :=
  0 <? localeCompare (Payment.date a) (Payment.date b).
Definition expenseAfter (a b : Expense.t) : bool :=
  0 <? localeCompare (Expense.date a) (Expense.date b).
Definition clientAfter (a b : Client.t) : bool :=
  0 <? localeCompare (Client.name a) (Client.name b).

(** The predicate of [data.payments.filter(...)] in [reportData]. *)
Definition paymentMatches (f : Filters) (p : Payment.t) : bool :=
  let dateMatch :=
    str_ge (Payment.date p) (startDate f) && str_le (Payment.date p) (endDate f) in
  let clientMatch :=
    String.eqb (selectedClientId f) "ALL"
    || String.eqb (Payment.clientId p) (selectedClientId f) in
  let methodMatch :=
    String.eqb (methodFilter f) "ALL"
    || String.eqb (or_string (Payment.method p) "Cash") (methodFilter f) in
  dateMatch && clientMatch && methodMatch.

Definition expenseInRange (f : Filters) (e : Expense.t) : bool :=
  str_ge (Expense.date e) (startDate f) && str_le (Expense.date e) (endDate f).

Definition reportData (data : AppData) (f : Filters) : Report.t :=
  (* 1. Filter Payments *)
  let filteredPayments :=
    sortBy paymentAfter (List.filter (paymentMatches f) (payments data)) in
  (* 2. Filter Expenses *)
  let filteredExpenses :=
    if String.eqb (selectedClientId f) "ALL" && String.eqb (methodFilter f) "ALL"
    then sortBy expenseAfter (List.filter (expenseInRange f) (expenses data))
    else [] in
  (* 3. Calculations *)
  let totalReceived :=
    sumBy Payment.amount (List.filter (fun p => negb (isRefund p)) filteredPayments) in
  let totalRefunded :=
    sumBy Payment.amount (List.filter (fun p => isRefund p) filteredPayments) in
  let netIncome := totalReceived - totalRefunded in
  let totalExpenses := sumBy Expense.amount filteredExpenses in
  let netProfit := netIncome - totalExpenses in
  (* 4. Method Breakdown *)
  let methodBreakdown :=
    if String.eqb (methodFilter f) "ALL"
    then fold_left (fun acc p =>
                      let m := or_string (Payment.method p) "Cash" in
                      let amt := if isRefund p then - Payment.amount p
                                 else Payment.amount p in
                      bump m amt acc) filteredPayments []
    else [] in
  (* Client Specific Totals *)
  let clientContext :=
    if negb (String.eqb (selectedClientId f) "ALL") then
      match find (fun c => String.eqb (Client.id c) (selectedClientId f)) (clients data) with
      | Some client =>
          let allClientPayments :=
            List.filter (fun p => String.eqb (Payment.clientId p) (Client.id client))
                   (payments data) in
          let allPaid := signedSum allClientPayments in
          Some (Report.mkContext (Client.name client) (Client.company client)
                  (or_zero (Client.totalBilled client)) allPaid
                  (or_zero (Client.totalBilled client) - allPaid))
      | None => None
      end
    else None in
  Report.mk filteredPayments filteredExpenses totalReceived totalRefunded
            netIncome totalExpenses netProfit clientContext methodBreakdown.

(** The totals row of [handleExportCSV], before [toFixed(2)]. *)
Definition csvTotalsRow (r : Report.t) (f : Filters) : TotalsRow :=
  mkTotals
    (Report.totalRefunded r
     + (if String.eqb (methodFilter f) "ALL" then Report.totalExpenses r else 0))
    (Report.totalReceived r).

(** The totals row of the table footer, before [toLocaleString()]. *)
Definition tfootTotals (r : Report.t) (f : Filters) : TotalsRow :=
  mkTotals
    (Report.totalRefunded r
     + (if String.eqb (methodFilter f) "ALL" then Report.totalExpenses r else 0))
    (Report.totalReceived r).
End Reports.

(** ** The JavaScript heap

    Arrays and [AppData] objects are mutable and shared by reference:
    [push] and [sort] change an array in place, and an assignment to
    [local.clients] changes a field of whatever object [local] refers to.
    A reference is an index into the store of its kind; allocation appends. *)

Abbreviation loc := nat (only parsing).

(** An [AppData] object: each field holds a reference to an array. *)
Record AppDataObj := mkObj {
  clientsRef : loc;
  paymentsRef : loc;
  expensesRef : loc
}.

Record Heap := mkHeap {
  clientArrays : list (list Client.t);
  paymentArrays : list (list Payment.t);
  expenseArrays : list (list Expense.t);
  objects : list AppDataObj
}.

Definition readClients (h : Heap) (a : loc) : list Client.t :=
  default [] (clientArrays h !! a).
Definition readPayments (h : Heap) (a : loc) : list Payment.t :=
  default [] (paymentArrays h !! a).
Definition readExpenses (h : Heap) (a : loc) : list Expense.t :=
  default [] (expenseArrays h !! a).
Definition readObject (h : Heap) (o : loc) : AppDataObj :=
  default (mkObj 0%nat 0%nat 0%nat) (objects h !! o).

Definition writeClients (a : loc) (l : list Client.t) (h : Heap) : Heap :=
  mkHeap (<[a := l]> (clientArrays h)) (paymentArrays h) (expenseArrays h) (objects h).
Definition writePayments (a : loc) (l : list Payment.t) (h : Heap) : Heap :=
  mkHeap (clientArrays h) (<[a := l]> (paymentArrays h)) (expenseArrays h) (objects h).
Definition writeExpenses (a : loc) (l : list Expense.t) (h : Heap) : Heap :=
  mkHeap (clientArrays h) (paymentArrays h) (<[a := l]> (expenseArrays h)) (objects h).
Definition writeObject (o : loc) (v : AppDataObj) (h : Heap) : Heap :=
  mkHeap (clientArrays h) (paymentArrays h) (expenseArrays h) (<[o := v]> (objects h)).

Definition allocClients (l : list Client.t) (h : Heap) : loc * Heap :=
  (length (clientArrays h),
   mkHeap (clientArrays h ++ [l]) (paymentArrays h) (expenseArrays h) (objects h)).
Definition allocPayments (l : list Payment.t) (h : Heap) : loc * Heap :=
  (length (paymentArrays h),
   mkHeap (clientArrays h) (paymentArrays h ++ [l]) (expenseArrays h) (objects h)).
Definition allocExpenses (l : list Expense.t) (h : Heap) : loc * Heap :=
  (length (expenseArrays h),
   mkHeap (clientArrays h) (paymentArrays h) (expenseArrays h ++ [l]) (objects h)).
Definition allocObject (v : AppDataObj) (h : Heap) : loc * Heap :=
  (length (objects h),
   mkHeap (clientArrays h) (paymentArrays h) (expenseArrays h) (objects h ++ [v])).

(** The contents an object denotes: what a reader of [o.clients],
    [o.payments] and [o.expenses] sees. *)
Definition deref (h : Heap) (o : loc) : AppData :=
  let v := readObject h o in
  mkAppData (readClients h (clientsRef v)) (readPayments h (paymentsRef v))
            (readExpenses h (expensesRef v)).

(** ** The environment: local storage, the remote backend, the page *)

Record Error := mkError { message : string }.

(** The text stored under a key of [localStorage]: the JSON of a ledger, or
    text on which [JSON.parse] throws. *)
Inductive Blob := Json (d : AppData) | Malformed.

Inductive Table := clientsT | paymentsT | expensesT.

Inductive Rows :=
| ClientRows (l : list Client.t)
| PaymentRows (l : list Payment.t)
| ExpenseRows (l : list Expense.t).

(** The requests [dataService] sends through the Supabase client:
    [supabase.from(t).select('*')], [.insert(rows)],
    [.update(updates).eq('id', id)], [.delete().eq('id', id)],
    [.upsert(rows)] and [.delete().neq('id', id)]. *)
Inductive Query :=
| Select (t : Table)
| Insert (t : Table) (rows : Rows)
| Update (t : Table) (updates : Rows) (id : string)
| DeleteEq (t : Table) (id : string)
| Upsert (t : Table) (rows : Rows)
| DeleteNeq (t : Table) (id : string).

(** Every request resolves to [{ data, error }]. *)
Record Reply := mkReply {
  replyData : option Rows;
  replyError : option Error
}.

(** [reply.data || []], read at the row type of the table. *)
Definition clientRows (r : Reply) : list Client.t :=
  match replyData r with Some (ClientRows l) => l | _ => [] end.
Definition paymentRows (r : Reply) : list Payment.t :=
  match replyData r with Some (PaymentRows l) => l | _ => [] end.
Definition expenseRows (r : Reply) : list Expense.t :=
  match replyData r with Some (ExpenseRows l) => l | _ => [] end.

Record World := mkWorld {
  heap : Heap;
  (** [localStorage['biztrack_data_v1']] *)
  stored : option Blob;
  (** [localStorage.setItem] throws (quota exceeded, storage disabled) *)
  quotaExceeded : bool;
  (** [localStorage['biztrack_sb_url']], [localStorage['biztrack_sb_key']] *)
  sb_url : option string;
  sb_key : option string;
  (** the remote backend: the reply to the last request of a history *)
  cloud : list Query -> Reply;
  (** the requests sent so far, oldest first *)
  requests : list Query;
  (** the messages shown by [alert], oldest first *)
  alerts : list string;
  (** the state of the [App] component *)
  data : loc;
  hasConnectionError : bool
}.

Definition with_heap (h : Heap) (w : World) : World :=
  mkWorld h (stored w) (quotaExceeded w) (sb_url w) (sb_key w) (cloud w)
          (requests w) (alerts w) (data w) (hasConnectionError w).
Definition with_stored (s : option Blob) (w : World) : World :=
  mkWorld (heap w) s (quotaExceeded w) (sb_url w) (sb_key w) (cloud w)
          (requests w) (alerts w) (data w) (hasConnectionError w).
Definition with_requests (q : list Query) (w : World) : World :=
  mkWorld (heap w) (stored w) (quotaExceeded w) (sb_url w) (sb_key w) (cloud w)
          q (alerts w) (data w) (hasConnectionError w).
Definition with_alerts (a : list string) (w : World) : World :=
  mkWorld (heap w) (stored w) (quotaExceeded w) (sb_url w) (sb_key w) (cloud w)
          (requests w) a (data w) (hasConnectionError w).
Definition with_data (d : loc) (w : World) : World :=
  mkWorld (heap w) (stored w) (quotaExceeded w) (sb_url w) (sb_key w) (cloud w)
          (requests w) (alerts w) d (hasConnectionError w).
Definition with_hasConnectionError (b : bool) (w : World) : World :=
  mkWorld (heap w) (stored w) (quotaExceeded w) (sb_url w) (sb_key w) (cloud w)
          (requests w) (alerts w) (data w) b.

(** The Ledger Store: the contents of the [data] state of [App]. *)
Definition ledger (w : World) : AppData := deref (heap w) (data w).

(** ** Computations with effects and exceptions

    An [async] function run to completion: [await] is sequencing. *)

Inductive Outcome (A : Type) :=
| Returned (a : A)
| Thrown (e : Error).
Arguments Returned {A} a.
Arguments Thrown {A} e.

Definition Js (A : Type) : Type := World -> Outcome A * World.

Definition ret {A} (a : A) : Js A := fun w => (Returned a, w).
Definition throw {A} (e : Error) : Js A := fun w => (Thrown e, w).
Definition bind {A B} (m : Js A) (k : A -> Js B) : Js B :=
  fun w => match m w with
           | (Returned a, w') => k a w'
           | (Thrown e, w') => (Thrown e, w')
           end.
Definition tryCatch {A} (m : Js A) (handler : Error -> Js A) : Js A :=
  fun w => match m w with
           | (Returned a, w') => (Returned a, w')
           | (Thrown e, w') => handler e w'
           end.

Declare Scope js_scope.
Delimit Scope js_scope with js.
Notation "x <- m ;; k" := (bind m (fun x => k))
  (at level 100, m at next level, right associativity) : js_scope.
Notation "m ;;; k" := (bind m (fun _ => k))
  (at level 100, right associativity) : js_scope.
Local Open Scope js_scope.

Definition gets {A} (f : World -> A) : Js A := fun w => (Returned (f w), w).
Definition modify (f : World -> World) : Js unit := fun w => (Returned tt, f w).

(** Allocation and heap access. *)
Definition alloc {A} (f : Heap -> A * Heap) : Js A :=
  fun w => let (a, h) := f (heap w) in (Returned a, with_heap h w).
Definition store (f : Heap -> Heap) : Js unit := modify (fun w => with_heap (f (heap w)) w).

Definition alert (msg : string) : Js unit :=
  modify (fun w => with_alerts (alerts w ++ [msg]) w).

(** A request to the remote backend: logged, then answered. *)
Definition request (q : Query) : Js Reply :=
  fun w => let log := requests w ++ [q] in
           (Returned (cloud w log), with_requests log w).

(** State of [App]: [data], [setData(value)], [setHasConnectionError]. *)
Definition setData (d : loc) : Js unit := modify (with_data d).
Definition setHasConnectionError (b : bool) : Js unit := modify (with_hasConnectionError b).

Definition readC (a : loc) : Js (list Client.t) := gets (fun w => readClients (heap w) a).
Definition readP (a : loc) : Js (list Payment.t) := gets (fun w => readPayments (heap w) a).
Definition readE (a : loc) : Js (list Expense.t) := gets (fun w => readExpenses (heap w) a).
Definition readO (o : loc) : Js AppDataObj := gets (fun w => readObject (heap w) o).

(** [{ ...o }]: a new object with the fields of [o]. *)
Definition spread (o : loc) : Js loc :=
  v <- readO o ;; alloc (allocObject v).

(** A new object with new arrays holding the given contents. *)
Definition allocData (d : AppData) : Js loc :=
  cs <- alloc (allocClients (clients d)) ;;
  ps <- alloc (allocPayments (payments d)) ;;
  es <- alloc (allocExpenses (expenses d)) ;;
  alloc (allocObject (mkObj cs ps es)).

(** [localStorage] at the key [STORAGE_KEY], and JSON. *)
Definition getItem : Js (option Blob) := gets stored.
Definition setItem (b : Blob) : Js unit :=
  fun w => if quotaExceeded w
           then (Thrown (mkError "The quota has been exceeded."), w)
           else (Returned tt, with_stored (Some b) w).
Definition removeItem : Js unit := modify (with_stored None).

Definition JSON_parse (b : Blob) : Js loc :=
  match b with
  | Json d => allocData d
  | Malformed => throw (mkError "Unexpected token in JSON")
  end.
Definition JSON_stringify (o : loc) : Js Blob :=
  gets (fun w => Json (deref (heap w) o)).

Definition truthy (s : option string) : bool :=
  match s with Some v => negb (String.eqb v "") | None => false end.

(** [getSupabaseClient()] of [lib/supabaseClient.ts]: a client when both
    settings are present ([url && key]), [null] otherwise. *)
Definition getSupabaseClient : Js bool :=
  gets (fun w => truthy (sb_url w) && truthy (sb_key w)).

(** [if (reply.error) throw reply.error] *)
Definition throwIfError (r : Reply) : Js unit :=
  match replyError r with Some error => throw error | None => ret tt end.

Definition nl : string := String "010"%char EmptyString.

(** ** The persistence adapter ([services/dataService.ts]) *)

(** The module constant [DEFAULT_DATA] is the first object of the heap. *)
Definition DEFAULT_DATA : loc := 0%nat.

Module dataService.

Definition getLocalData : Js loc :=
  stored <- getItem ;;
  match stored with
  | Some text => JSON_parse text
  | None => ret DEFAULT_DATA
  end.

Definition saveLocalData (data : loc) : Js unit :=
  text <- JSON_stringify data ;; setItem text.

(** [local.clients = local.clients.map(c => ({...c, isActive: c.isActive !== false}))] *)
Definition normalizeLocal (local : loc) : Js unit :=
  v <- readO local ;;
  cs <- readC (clientsRef v) ;;
  a <- alloc (allocClients (map normalizeClient cs)) ;;
  store (writeObject local (mkObj a (paymentsRef v) (expensesRef v))).

(** The text of the alert raised when the cloud cannot be read. *)
Definition connectionWarning (error : Error) : string :=
  ("Connection Warning: Could not fetch data from cloud. "
   ++ nl ++ nl ++ "Error: "
   ++ or_string (Some (message error)) "Unknown error"
   ++ nl ++ nl
   ++ "Tip: Check if Row Level Security (RLS) is disabled in your Supabase Table settings.")%string.

Definition fetchData : Js loc :=
  supabase <- getSupabaseClient ;;
  if supabase then
    tryCatch
      (clients <- request (Select clientsT) ;;
       payments <- request (Select paymentsT) ;;
       expenses <- request (Select expensesT) ;;
       throwIfError clients ;;;
       throwIfError payments ;;;
       throwIfError expenses ;;;
       normalizedClients <- alloc (allocClients (map normalizeClient (clientRows clients))) ;;
       ps <- alloc (allocPayments (paymentRows payments)) ;;
       es <- alloc (allocExpenses (expenseRows expenses)) ;;
       alloc (allocObject (mkObj normalizedClients ps es)))
      (fun error =>
         alert (connectionWarning error) ;;;
         (* Fallback to local data but normalized *)
         local <- getLocalData ;;
         normalizeLocal local ;;;
         ret local)
  else
    local <- getLocalData ;;
    normalizeLocal local ;;;
    ret local.

Definition addClient (client : Client.t) : Js unit :=
  supabase <- getSupabaseClient ;;
  if supabase then
    r <- request (Insert clientsT (ClientRows [client])) ;;
    match replyError r with
    | Some error =>
        throw (mkError ("Failed to save client: " ++ message error
                        ++ " (Check RLS Policies)")%string)
    | None => ret tt
    end
  else
    data <- getLocalData ;;
    v <- readO data ;;
    cs <- readC (clientsRef v) ;;
    store (writeClients (clientsRef v) (cs ++ [client])) ;;;   (* push *)
    saveLocalData data.

Definition updateClient (client : Client.t) : Js unit :=
  supabase <- getSupabaseClient ;;
  if supabase then
    r <- request (Update clientsT (ClientRows [client]) (Client.id client)) ;;
    match replyError r with
    | Some error =>
        throw (mkError ("Failed to update client: " ++ message error)%string)
    | None => ret tt
    end
  else
    data <- getLocalData ;;
    v <- readO data ;;
    cs <- readC (clientsRef v) ;;
    a <- alloc (allocClients
                  (map (fun c => if String.eqb (Client.id c) (Client.id client)
                                 then client else c) cs)) ;;
    store (writeObject data (mkObj a (paymentsRef v) (expensesRef v))) ;;;
    saveLocalData data.

Definition addPayment (payment : Payment.t) : Js unit :=
  supabase <- getSupabaseClient ;;
  if supabase then
    r <- request (Insert paymentsT (PaymentRows [payment])) ;;
    match replyError r with
    | Some error =>
        throw (mkError ("Failed to save payment: " ++ message error
                        ++ " (Check RLS Policies)")%string)
    | None => ret tt
    end
  else
    data <- getLocalData ;;
    v <- readO data ;;
    ps <- readP (paymentsRef v) ;;
    store (writePayments (paymentsRef v) (ps ++ [payment])) ;;;   (* push *)
    saveLocalData data.

Definition updatePayment (payment : Payment.t) : Js unit :=
  supabase <- getSupabaseClient ;;
  if supabase then
    r <- request (Update paymentsT (PaymentRows [payment]) (Payment.id payment)) ;;
    match replyError r with
    | Some error =>
        throw (mkError ("Failed to update payment: " ++ message error)%string)
    | None => ret tt
    end
  else
    data <- getLocalData ;;
    v <- readO data ;;
    ps <- readP (paymentsRef v) ;;
    a <- alloc (allocPayments
                  (map (fun p => if String.eqb (Payment.id p) (Payment.id payment)
                                 then payment else p) ps)) ;;
    store (writeObject data (mkObj (clientsRef v) a (expensesRef v))) ;;;
    saveLocalData data.

Definition deletePayment (id : string) : Js unit :=
  supabase <- getSupabaseClient ;;
  if supabase then
    r <- request (DeleteEq paymentsT id) ;;
    match replyError r with
    | Some error =>
        throw (mkError ("Failed to delete payment: " ++ message error)%string)
    | None => ret tt
    end
  else
    data <- getLocalData ;;
    v <- readO data ;;
    ps <- readP (paymentsRef v) ;;
    a <- alloc (allocPayments
                  (List.filter (fun p => negb (String.eqb (Payment.id p) id)) ps)) ;;
    store (writeObject data (mkObj (clientsRef v) a (expensesRef v))) ;;;
    saveLocalData data.

Definition addExpense (expense : Expense.t) : Js unit :=
  supabase <- getSupabaseClient ;;
  if supabase then
    r <- request (Insert expensesT (ExpenseRows [expense])) ;;
    match replyError r with
    | Some error =>
        throw (mkError ("Failed to save expense: " ++ message error
                        ++ " (Check RLS Policies)")%string)
    | None => ret tt
    end
  else
    data <- getLocalData ;;
    v <- readO data ;;
    es <- readE (expensesRef v) ;;
    store (writeExpenses (expensesRef v) (es ++ [expense])) ;;;   (* push *)
    saveLocalData data.

Definition deleteExpense (id : string) : Js unit :=
  supabase <- getSupabaseClient ;;
  if supabase then
    r <- request (DeleteEq expensesT id) ;;
    match replyError r with
    | Some error =>
        throw (mkError ("Failed to delete expense: " ++ message error)%string)
    | None => ret tt
    end
  else
    data <- getLocalData ;;
    v <- readO data ;;
    es <- readE (expensesRef v) ;;
    a <- alloc (allocExpenses
                  (List.filter (fun e => negb (String.eqb (Expense.id e) id)) es)) ;;
    store (writeObject data (mkObj (clientsRef v) (paymentsRef v) a)) ;;;
    saveLocalData data.

(** [if (rows.length) { const { error } = await upsert(rows); if (error) throw error; }] *)
Definition upsertIfAny (t : Table) (isEmpty : bool) (rows : Rows) : Js unit :=
  if isEmpty then ret tt
  else r <- request (Upsert t rows) ;; throwIfError r.

Definition isNil {A} (l : list A) : bool :=
  match l with [] => true | _ => false end.

Definition importData (newData : loc) : Js unit :=
  supabase <- getSupabaseClient ;;
  if supabase then
    v <- readO newData ;;
    cs <- readC (clientsRef v) ;;
    upsertIfAny clientsT (isNil cs) (ClientRows cs) ;;;
    ps <- readP (paymentsRef v) ;;
    upsertIfAny paymentsT (isNil ps) (PaymentRows ps) ;;;
    es <- readE (expensesRef v) ;;
    upsertIfAny expensesT (isNil es) (ExpenseRows es)
  else
    saveLocalData newData.

Definition zeroId : string := "00000000-0000-0000-0000-000000000000".

Definition isError (r : Reply) : bool :=
  match replyError r with Some _ => true | None => false end.

Definition clearData : Js unit :=
  supabase <- getSupabaseClient ;;
  if supabase then
    r1 <- request (DeleteNeq paymentsT zeroId) ;;
    r2 <- request (DeleteNeq expensesT zeroId) ;;
    r3 <- request (DeleteNeq clientsT zeroId) ;;
    if isError r1 || isError r2 || isError r3
    then throw (mkError "Failed to clear some cloud data. Check RLS.")
    else ret tt
  else
    removeItem.

End dataService.

(** ** The optimistic mutation coordinator ([App.tsx])

    A handler is run to completion from the render whose [data] is the
    current state: no other event is interleaved.  [setData(prev => ...)]
    computes the next state from the current one when it is called. *)

Module App.

(** [setData(prev => next)]: [next] builds the fields of the new object. *)
Definition setDataWith (next : AppDataObj -> Js AppDataObj) : Js unit :=
  prev <- gets data ;;
  v <- readO prev ;;
  v' <- next v ;;
  o <- alloc (allocObject v') ;;
  setData o.

(** [catch (error) { alert(error.message); setData(prevData); }] *)
Definition rollback (prevData : loc) (error : Error) : Js unit :=
  alert (message error) ;;;
  setData prevData.

Definition loadData : Js unit :=
  tryCatch
    (setHasConnectionError false ;;;
     fetchedData <- dataService.fetchData ;;
     setData fetchedData)
    (fun e => setHasConnectionError true).

Definition addClient (client : Client.t) : Js unit :=
  data <- gets data ;;
  prevData <- spread data ;;
  (* Optimistic Update *)
  setDataWith (fun prev =>
    cs <- readC (clientsRef prev) ;;
    a <- alloc (allocClients (cs ++ [client])) ;;
    ret (mkObj a (paymentsRef prev) (expensesRef prev))) ;;;
  tryCatch (dataService.addClient client) (rollback prevData).

Definition updateClient (updatedClient : Client.t) : Js unit :=
  data <- gets data ;;
  prevData <- spread data ;;
  setDataWith (fun prev =>
    cs <- readC (clientsRef prev) ;;
    a <- alloc (allocClients
                  (map (fun c => if String.eqb (Client.id c) (Client.id updatedClient)
                                 then updatedClient else c) cs)) ;;
    ret (mkObj a (paymentsRef prev) (expensesRef prev))) ;;;
  tryCatch (dataService.updateClient updatedClient) (rollback prevData).

Definition addPayment (payment : Payment.t) : Js unit :=
  data <- gets data ;;
  prevData <- spread data ;;
  setDataWith (fun prev =>
    ps <- readP (paymentsRef prev) ;;
    a <- alloc (allocPayments (ps ++ [payment])) ;;
    ret (mkObj (clientsRef prev) a (expensesRef prev))) ;;;
  tryCatch (dataService.addPayment payment) (rollback prevData).

Definition updatePayment (payment : Payment.t) : Js unit :=
  data <- gets data ;;
  prevData <- spread data ;;
  setDataWith (fun prev =>
    ps <- readP (paymentsRef prev) ;;
    a <- alloc (allocPayments
                  (map (fun p => if String.eqb (Payment.id p) (Payment.id payment)
                                 then payment else p) ps)) ;;
    ret (mkObj (clientsRef prev) a (expensesRef prev))) ;;;
  tryCatch (dataService.updatePayment payment) (rollback prevData).

Definition deletePayment (id : string) : Js unit :=
  data <- gets data ;;
  prevData <- spread data ;;
  setDataWith (fun prev =>
    ps <- readP (paymentsRef prev) ;;
    a <- alloc (allocPayments
                  (List.filter (fun p => negb (String.eqb (Payment.id p) id)) ps)) ;;
    ret (mkObj (clientsRef prev) a (expensesRef prev))) ;;;
  tryCatch (dataService.deletePayment id) (rollback prevData).

Definition addExpense (expense : Expense.t) : Js unit :=
  data <- gets data ;;
  prevData <- spread data ;;
  setDataWith (fun prev =>
    es <- readE (expensesRef prev) ;;
    a <- alloc (allocExpenses (es ++ [expense])) ;;
    ret (mkObj (clientsRef prev) (paymentsRef prev) a)) ;;;
  tryCatch (dataService.addExpense expense) (rollback prevData).

Definition deleteExpense (id : string) : Js unit :=
  data <- gets data ;;
  prevData <- spread data ;;
  setDataWith (fun prev =>
    es <- readE (expensesRef prev) ;;
    a <- alloc (allocExpenses
                  (List.filter (fun e => negb (String.eqb (Expense.id e) id)) es)) ;;
    ret (mkObj (clientsRef prev) (paymentsRef prev) a)) ;;;
  tryCatch (dataService.deleteExpense id) (rollback prevData).

Definition importData (newData : loc) : Js unit :=
  tryCatch
    (dataService.importData newData ;;;
     loadData)
    (fun error => alert ("Import failed: " ++ message error)%string).

Definition clearData : Js unit :=
  tryCatch
    (dataService.clearData ;;;
     o <- allocData emptyData ;;
     setData o)
    (fun error => alert ("Clear failed: " ++ message error)%string).

(** The object parsed from an import file, handed to [importData]. *)
Definition importFile (json : AppData) : Js unit :=
  newData <- allocData json ;;
  importData newData.

End App.

(** The seven mutations of the coordinator. *)
Inductive Mutation :=
| AddClient (client : Client.t)
| UpdateClient (client : Client.t)
| AddPayment (payment : Payment.t)
| UpdatePayment (payment : Payment.t)
| DeletePayment (id : string)
| AddExpense (expense : Expense.t)
| DeleteExpense (id : string).

Definition handler (m : Mutation) : Js unit :=
  match m with
  | AddClient c => App.addClient c
  | UpdateClient c => App.updateClient c
  | AddPayment p => App.addPayment p
  | UpdatePayment p => App.updatePayment p
  | DeletePayment id => App.deletePayment id
  | AddExpense e => App.addExpense e
  | DeleteExpense id => App.deleteExpense id
  end.

(** The persistence call a mutation forwards to. *)
Definition persist (m : Mutation) : Js unit :=
  match m with
  | AddClient c => dataService.addClient c
  | UpdateClient c => dataService.updateClient c
  | AddPayment p => dataService.addPayment p
  | UpdatePayment p => dataService.updatePayment p
  | DeletePayment id => dataService.deletePayment id
  | AddExpense e => dataService.addExpense e
  | DeleteExpense id => dataService.deleteExpense id
  end.

(** ** The reports view as a computation on the heap ([components/Reports.tsx]) *)

Module ReportsView.
Section View.
Variable localeCompare : string -> string -> Z.

(** [data.clients.sort((a, b) => a.name.localeCompare(b.name))]: [sort]
    reorders the array it is called on and returns that same array. *)
Definition clients (data : loc) : Js (list Client.t) :=
  v <- readO data ;;
  cs <- readC (clientsRef v) ;;
  store (writeClients (clientsRef v) (sortBy (clientAfter localeCompare) cs)) ;;;
  readC (clientsRef v).

(** One render of the view for the props [data]: the memoised client
    list, then the memoised report. *)
Definition render (data : loc) (f : Filters) : Js (list Client.t * Report.t) :=
  clients <- clients data ;;
  snapshot <- gets (fun w => deref (heap w) data) ;;
  ret (clients, reportData localeCompare snapshot f).
End View.
End ReportsView.

(** The state of a freshly loaded page: [DEFAULT_DATA] and the initial
    [useState] value [{ clients: [], payments: [], expenses: [] }], each
    with three arrays of its own. *)
Definition initialHeap : Heap :=
  mkHeap [[]; []] [[]; []] [[]; []] [mkObj 0 0 0; mkObj 1 1 1]%nat.

Definition initialWorld (stored : option Blob) (quotaExceeded : bool)
    (sb_url sb_key : option string) (cloud : list Query -> Reply) : World :=
  mkWorld initialHeap stored quotaExceeded sb_url sb_key cloud [] [] 1%nat false.

(** Running a computation for its final world. *)
Definition exec {A} (m : Js A) (w : World) : World := snd (m w).
Definition outcome {A} (m : Js A) (w : World) : Outcome A := fst (m w).

(** ** The specification's vocabulary *)

#[global] Instance PaymentType_eq_dec : EqDecision PaymentType.
Proof. solve_decision. Defined.






(** The sum of a list of amounts. *)
Definition total (amounts : list Z) : Z := fold_right Z.add 0 amounts.

(** ** Example inputs *)

(** Client C of the specification: billed 1000, one payment of 400 received
    and one refund of 100. *)
Definition clientC : Client.t :=
  Client.mk "C" "Client C" "c@example.com" "" None None 0 (Some true) (Some 1000).
Definition received400 : Payment.t :=
  Payment.mk "p1" "C" 400 "2024-01-10" None (Some "Cash") None (Some RECEIVED).
Definition refund100 : Payment.t :=
  Payment.mk "p2" "C" 100 "2024-01-20" None None None (Some REFUND).
Definition rent : Expense.t :=
  Expense.mk "e1" "Rent" 250 "2024-01-15" "Office".
Definition ledgerC : AppData :=
  mkAppData [clientC] [received400; refund100] [rent].

(** Comparison by code units, which is how [localeCompare] orders the plain
    ASCII names and the ISO dates of the examples. *)
Definition codeUnitCompare (a b : string) : Z :=
  match String.compare a b with Lt => -1 | Eq => 0 | Gt => 1 end.

(** The backend a call is routed to: remote when [getSupabaseClient()]
    returns a client, local otherwise. *)
Definition remoteBackend (w : World) : bool :=
  truthy (sb_url w) && truthy (sb_key w).

(** The replies to the three fetches of [fetchData] sent from [w]. *)
Definition fetchLog (w : World) (n : nat) : list Query :=
  requests w ++ take n [Select clientsT; Select paymentsT; Select expensesT].

(** Some fetch of the three reports an error. *)
Definition fetchFailed (w : World) : bool :=
  dataService.isError (cloud w (fetchLog w 1))
  || dataService.isError (cloud w (fetchLog w 2))
  || dataService.isError (cloud w (fetchLog w 3)).

(** The ledger the three replies carry, clients normalised. *)
Definition remoteLedger (w : World) : AppData :=
  mkAppData (map normalizeClient (clientRows (cloud w (fetchLog w 1))))
            (paymentRows (cloud w (fetchLog w 2)))
            (expenseRows (cloud w (fetchLog w 3))).


Definition normalizeLedger (d : AppData) : AppData :=
  mkAppData (map normalizeClient (clients d)) (payments d) (expenses d).


(** The references of the [data] state and of [DEFAULT_DATA] point into the
    heap. *)
Definition validObject (h : Heap) (o : loc) : Prop :=
  exists v, objects h !! o = Some v
    /\ (clientsRef v < length (clientArrays h))%nat
    /\ (paymentsRef v < length (paymentArrays h))%nat
    /\ (expensesRef v < length (expenseArrays h))%nat.

Definition wellFormed (w : World) : Prop :=
  validObject (heap w) DEFAULT_DATA /\ validObject (heap w) (data w).

(** *** Example backends and pages *)

Definition tableOf (q : Query) : Table :=
  match q with
  | Select t | Insert t _ | Update t _ _ | DeleteEq t _ | Upsert t _ | DeleteNeq t _ => t
  end.

Definition rowsOf (d : AppData) (t : Table) : Rows :=
  match t with
  | clientsT => ClientRows (clients d)
  | paymentsT => PaymentRows (payments d)
  | expensesT => ExpenseRows (expenses d)
  end.

(** A backend holding the ledger [d]: it answers a select with the rows of
    the table and accepts every other request. *)
Definition cloudHolding (d : AppData) (log : list Query) : Reply :=
  match last log with
  | Some (Select t) => mkReply (Some (rowsOf d t)) None
  | _ => mkReply None None
  end.

Definition sameTable (a b : Table) : bool :=
  match a, b with
  | clientsT, clientsT | paymentsT, paymentsT | expensesT, expensesT => true
  | _, _ => false
  end.

(** A backend that refuses every request on table [t] and accepts the
    others, holding nothing. *)
Definition cloudDenying (t : Table) (log : list Query) : Reply :=
  match last log with
  | Some q => if sameTable (tableOf q) t
              then mkReply None (Some (mkError "permission denied"))
              else mkReply (Some (rowsOf emptyData (tableOf q))) None
  | None => mkReply None None
  end.

(** A freshly loaded page configured for the remote backend. *)
Definition remotePage (stored : option Blob) (cloud : list Query -> Reply) : World :=
  initialWorld stored false (Some "https://project.supabase.co") (Some "anon-key") cloud.

(** A freshly loaded page on the local backend. *)
Definition localPage (stored : option Blob) (quotaExceeded : bool) : World :=
  initialWorld stored quotaExceeded None None (cloudHolding emptyData).


(** A page configured for a remote backend that holds the ledger of
    client C, with nothing in local storage. *)
Definition pageOverRemoteLedgerC : World :=
  remotePage None (cloudHolding ledgerC).

(** A page on the local backend after it has loaded the ledger of
    client C from local storage. *)
Definition pageShowingLedgerC : World :=
  exec App.loadData (localPage (Some (Json ledgerC)) false).

(** A client and a payment whose ids occur nowhere in the ledger of
    client C. *)
Definition strangerClient : Client.t :=
  Client.mk "X" "Stranger" "x@example.com" "" None None 0 None (Some 5).
Definition strangerPayment : Payment.t :=
  Payment.mk "p9" "C" 70 "2024-02-01" None None None None.

(** [keeps h h']: the heap [h'] still holds the arrays of [h] with their
    contents and the objects of [h] with their fields, [DEFAULT_DATA]
    apart. *)
Definition keeps (h h' : Heap) : Prop :=
  (forall a, (a < length (clientArrays h))%nat ->
             clientArrays h' !! a = clientArrays h !! a)
  /\ (forall a, (a < length (paymentArrays h))%nat ->
                paymentArrays h' !! a = paymentArrays h !! a)
  /\ (forall a, (a < length (expenseArrays h))%nat ->
                expenseArrays h' !! a = expenseArrays h !! a)
  /\ (forall o, (0 < o < length (objects h))%nat ->
                objects h' !! o = objects h !! o).

(** The persistence call of [m] pushes onto an array of [DEFAULT_DATA]:
    an addition on the local backend while nothing is stored. *)
Definition pushesOnDefaultData (m : Mutation) (w : World) : Prop :=
  remoteBackend w = false /\ stored w = None
  /\ match m with
     | AddClient _ | AddPayment _ | AddExpense _ => True
     | _ => False
     end.

(** The ledger a mutation asks for: the reference, sequential meaning of
    the seven mutations. *)
Definition applyMutation (m : Mutation) (d : AppData) : AppData :=
  match m with
  | AddClient c => mkAppData (clients d ++ [c]) (payments d) (expenses d)
  | UpdateClient c =>
      mkAppData (map (fun c' => if String.eqb (Client.id c') (Client.id c)
                                then c else c') (clients d))
                (payments d) (expenses d)
  | AddPayment p => mkAppData (clients d) (payments d ++ [p]) (expenses d)
  | UpdatePayment p =>
      mkAppData (clients d)
                (map (fun p' => if String.eqb (Payment.id p') (Payment.id p)
                                then p else p') (payments d))
                (expenses d)
  | DeletePayment id =>
      mkAppData (clients d)
                (List.filter (fun p => negb (String.eqb (Payment.id p) id)) (payments d))
                (expenses d)
  | AddExpense e => mkAppData (clients d) (payments d) (expenses d ++ [e])
  | DeleteExpense id =>
      mkAppData (clients d) (payments d)
                (List.filter (fun e => negb (String.eqb (Expense.id e) id)) (expenses d))
  end.

(** A page on the local backend that has loaded while nothing is stored
    and while local storage refuses writes (quota exceeded, or a browser
    that disables storage). *)
Definition pageWithoutStorage : World :=
  exec App.loadData (localPage None true).

(** A page configured for a remote backend whose [payments] table refuses
    every request. *)
Definition pageDenyingPayments : World :=
  remotePage None (cloudDenying paymentsT).

(** A page showing two clients, Bob stored before Alice. *)
Definition bob : Client.t :=
  Client.mk "c1" "Bob" "bob@example.com" "" None None 1 (Some true) (Some 500).
Definition alice : Client.t :=
  Client.mk "c2" "Alice" "alice@example.com" "" None None 2 (Some true) (Some 800).
Definition pageShowingBobAndAlice : World :=
  exec App.loadData (localPage (Some (Json (mkAppData [bob; alice] [] []))) false).

Definition january : Filters := mkFilters "2024-01-01" "2024-01-31" "ALL" "ALL".

Definition januaryInCash : Filters := mkFilters "2024-01-01" "2024-01-31" "ALL" "Cash".

(** ** The states a page goes through

    The events of a session, each run to completion: loading (at start, at
    login, on retry), one of the seven mutations, an import, a clear, a
    render of the reports view.  Between two events the environment may
    change local storage, the settings and the remote backend at will. *)
Inductive Event :=
| Load
| Mutate (m : Mutation)
| Import (json : AppData)
| Clear
| ShowReports (localeCompare : string -> string -> Z) (f : Filters).

Definition react (e : Event) : Js unit :=
  match e with
  | Load => App.loadData
  | Mutate m => handler m
  | Import json => App.importFile json
  | Clear => App.clearData
  | ShowReports localeCompare f =>
      d <- gets data ;;
      ReportsView.render localeCompare d f ;;;
      ret tt
  end.

Definition sameProgramState (w w' : World) : Prop :=
  heap w' = heap w /\ data w' = data w.

Inductive reachable : World -> Prop :=
| reach_start stored quotaExceeded sb_url sb_key cloud :
    reachable (initialWorld stored quotaExceeded sb_url sb_key cloud)
| reach_event e w :
    reachable w -> reachable (exec (react e) w)
| reach_environment w w' :
    reachable w -> sameProgramState w w' -> reachable w'.

(** ** More of the views

    [getClientName] of [components/Reports.tsx]:
    [data.clients.find(c => c.id === id)?.name || 'Unknown'] *)
Definition getClientName (data : AppData) (id : string) : string :=
  or_string
    (Client.name <$> find (fun c => String.eqb (Client.id c) id) (clients data))
    "Unknown".

(** [Array.from(new Set(xs))]: the distinct elements, each at its first
    occurrence. *)
Definition distinct (xs : list string) : list string :=
  fold_left (fun seen x => if existsb (String.eqb x) seen then seen else seen ++ [x])
            xs [].

(** [xs.sort()] on strings: code-unit order. *)
Definition sortStrings (xs : list string) : list string :=
  sortBy (fun a b => match String.compare a b with Gt => true | _ => false end) xs.

(** [methods] of [components/Reports.tsx]:
    [Array.from(new Set(data.payments.map(p => p.method || 'Cash'))).sort()] *)
Definition methods (data : AppData) : list string :=
  sortStrings (distinct (map (fun p => or_string (Payment.method p) "Cash")
                             (payments data))).

(** The [Clients] component ([src/unnamed/part_000]). *)

Inductive UserRole := ADMIN | VIEWER.

Inductive StatusFilter := ShowALL | ShowACTIVE | ShowINACTIVE.

(** [client.isActive !== false] *)
Definition isActiveClient (c : Client.t) : bool :=
  match Client.isActive c with Some false => false | _ => true end.

Section ClientsView.
(** [String.prototype.toLowerCase], [String.prototype.includes] and
    [String.prototype.localeCompare] belong to the host. *)
Variable toLowerCase : string -> string.
Variable includes : string -> string -> bool.
Variable localeCompare : string -> string -> Z.

Definition clientMatchesSearch (searchTerm : string) (client : Client.t) : bool :=
  includes (toLowerCase (Client.name client)) (toLowerCase searchTerm)
  || match Client.company client with
     | Some company => includes (toLowerCase company) (toLowerCase searchTerm)
     | None => false
     end
  || includes (toLowerCase (Client.email client)) (toLowerCase searchTerm).

(** The predicate of [data.clients.filter(...)] in [filteredClients]. *)
Definition clientShown (searchTerm : string) (statusFilter : StatusFilter)
    (client : Client.t) : bool :=
  let matchesSearch := clientMatchesSearch searchTerm client in
  match statusFilter with
  | ShowALL => matchesSearch
  | ShowACTIVE => matchesSearch && isActiveClient client
  | ShowINACTIVE => matchesSearch && negb (isActiveClient client)
  end.

(** The comparator of [filteredClients]: active first, then by name. *)
Definition clientOrder (a b : Client.t) : Z :=
  let aActive := isActiveClient a in
  let bActive := isActiveClient b in
  if aActive && negb bActive then -1
  else if negb aActive && bActive then 1
  else localeCompare (Client.name a) (Client.name b).

Definition filteredClients (data : AppData) (searchTerm : string)
    (statusFilter : StatusFilter) : list Client.t :=
  sortBy (fun a b => 0 <? clientOrder a b)
         (List.filter (clientShown searchTerm statusFilter) (clients data)).
End ClientsView.

(** [handleToggleStatus]: the client handed to [onUpdateClient], none for a
    viewer.  [{...client, isActive: client.isActive === false ? true : false}] *)
Definition toggledClient (client : Client.t) : Client.t :=
  Client.mk (Client.id client) (Client.name client) (Client.email client)
            (Client.phone client) (Client.company client) (Client.notes client)
            (Client.createdAt client)
            (Some (match Client.isActive client with Some false => true | _ => false end))
            (Client.totalBilled client).

Definition handleToggleStatus (userRole : UserRole) (client : Client.t)
    : option Client.t :=
  match userRole with
  | ADMIN => Some (toggledClient client)
  | VIEWER => None
  end.

(** *** Breakdowns

    A breakdown is built in a JavaScript object created by [{}].  Such an
    object answers the names below with the properties it inherits from
    [Object.prototype], so [m[k] || 0] is a number only for the other keys;
    [bump] stands for the source on those. *)
Definition objectPrototypeKeys : list string :=
  ["constructor"; "__proto__"; "hasOwnProperty"; "isPrototypeOf";
   "propertyIsEnumerable"; "toLocaleString"; "toString"; "valueOf";
   "__defineGetter__"; "__defineSetter__"; "__lookupGetter__"; "__lookupSetter__"].

Definition plainKey (k : string) : Prop := ~ In k objectPrototypeKeys.

(** The sum of the values of the elements filed under the key [k]. *)
Definition filed {A} (key : A -> string) (val : A -> Z) (k : string) (xs : list A) : Z :=
  total (map val (List.filter (fun x => String.eqb (key x) k) xs)).

(** The method a payment is filed under, and its signed amount. *)
Definition methodOf (p : Payment.t) : string := or_string (Payment.method p) "Cash".
Definition signedAmount (p : Payment.t) : Z :=
  if isRefund p then - Payment.amount p else Payment.amount p.

(** ** The connection settings ([lib/supabaseClient.ts]) and the settings
    view ([Settings] of [src/unnamed/part_001]) *)

Definition with_sb_url (u : option string) (w : World) : World :=
  mkWorld (heap w) (stored w) (quotaExceeded w) u (sb_key w) (cloud w)
          (requests w) (alerts w) (data w) (hasConnectionError w).
Definition with_sb_key (k : option string) (w : World) : World :=
  mkWorld (heap w) (stored w) (quotaExceeded w) (sb_url w) k (cloud w)
          (requests w) (alerts w) (data w) (hasConnectionError w).

(** [localStorage.setItem] at the keys of the two settings. *)
Definition setUrlItem (url : string) : Js unit :=
  fun w => if quotaExceeded w
           then (Thrown (mkError "The quota has been exceeded."), w)
           else (Returned tt, with_sb_url (Some url) w).
Definition setKeyItem (key : string) : Js unit :=
  fun w => if quotaExceeded w
           then (Thrown (mkError "The quota has been exceeded."), w)
           else (Returned tt, with_sb_key (Some key) w).

Definition getSupabaseConfig : Js (option string * option string) :=
  gets (fun w => (sb_url w, sb_key w)).

Definition saveSupabaseConfig (url key : string) : Js unit :=
  setUrlItem url ;;;
  setKeyItem key.

Definition clearSupabaseConfig : Js unit :=
  modify (with_sb_url None) ;;;
  modify (with_sb_key None).

(** What [JSON.parse] makes of an import file: an object whose fields
    [clients], [payments] and [expenses] are arrays or not ([None]: the
    field is missing or is no array), or an exception. *)
Record ImportFile := mkImportFile {
  fileClients : option (list Client.t);
  filePayments : option (list Payment.t);
  fileExpenses : option (list Expense.t)
}.

Inductive FileText := Parsed (json : ImportFile) | Unparsable.

Module Settings.

(** [handleFileChange], from the [onload] of the reader on; [confirmed] is
    the answer to [window.confirm].  [onImportData(json)] is not awaited:
    the message of success is shown before the import reports anything. *)
Definition handleFileChange (file : FileText) (confirmed : bool) : Js unit :=
  match file with
  | Unparsable => alert "Error parsing file."
  | Parsed json =>
      match fileClients json, filePayments json, fileExpenses json with
      | Some cs, Some ps, Some es =>
          if confirmed then
            alert "Data imported successfully!" ;;;
            App.importFile (mkAppData cs ps es)
          else ret tt
      | _, _, _ => alert "Invalid file format."
      end
  end.

(** [handleClearData] *)
Definition handleClearData (confirmed : bool) : Js unit :=
  if confirmed then App.clearData else ret tt.

(** [handleDisconnect] *)
Definition handleDisconnect (confirmed : bool) : Js unit :=
  if confirmed then
    clearSupabaseConfig ;;;
    alert "Supabase disconnected. Using local storage." ;;;
    App.loadData
  else ret tt.

End Settings.

(** *** Vocabulary for the adapter and the coordinator *)

(** The request a mutation sends on the remote backend. *)
Definition queryOf (m : Mutation) : Query :=
  match m with
  | AddClient c => Insert clientsT (ClientRows [c])
  | UpdateClient c => Update clientsT (ClientRows [c]) (Client.id c)
  | AddPayment p => Insert paymentsT (PaymentRows [p])
  | UpdatePayment p => Update paymentsT (PaymentRows [p]) (Payment.id p)
  | DeletePayment id => DeleteEq paymentsT id
  | AddExpense e => Insert expensesT (ExpenseRows [e])
  | DeleteExpense id => DeleteEq expensesT id
  end.

(** A backend that accepts every request. *)
Definition neverFails (w : World) : Prop :=
  forall log, replyError (cloud w log) = None.

(** Mutations run one after the other, and what they ask for. *)
Fixpoint runAll (ms : list Mutation) : Js unit :=
  match ms with
  | [] => ret tt
  | m :: ms' => handler m ;;; runAll ms'
  end.

Definition applyAll (ms : list Mutation) (d : AppData) : AppData :=
  fold_left (fun d m => applyMutation m d) ms d.

(** Every client carries an explicit [isActive]. *)
Definition normalized (d : AppData) : Prop :=
  Forall (fun c => exists b, Client.isActive c = Some b) (clients d).

(** * Properties *)

(** ** Arithmetic of the reductions *)

Lemma fold_sum_shift {A} (f : A -> Z) (xs : list A) (a : Z) :
  fold_left (fun sum x => sum + f x) xs a = a + sumBy f xs.
Proof.
  unfold sumBy. revert a.
  induction xs as [|x xs IH]; intros a; simpl; [lia|].
  rewrite (IH (a + f x)), (IH (0 + f x)). lia.
Qed.

Lemma sumBy_cons {A} (f : A -> Z) (x : A) (xs : list A) :
  sumBy f (x :: xs) = f x + sumBy f xs.
Proof. unfold sumBy at 1. simpl. rewrite fold_sum_shift. lia. Qed.

Lemma sumBy_total {A} (f : A -> Z) (xs : list A) :
  sumBy f xs = total (map f xs).
Proof.
  induction xs as [|x xs IH]; [reflexivity|].
  rewrite sumBy_cons, IH. reflexivity.
Qed.




(** ** Normalisation *)

(** C7: the normalisation of a client record at the read boundary of the
    adapter is idempotent: applied twice it yields the record it yields
    when applied once, for one record and for a whole collection. *)
Theorem normalizeClient_idempotent :
  (forall c : Client.t, normalizeClient (normalizeClient c) = normalizeClient c)
  /\ (forall cs : list Client.t,
        map normalizeClient (map normalizeClient cs) = map normalizeClient cs).
Proof.
  assert (H : forall c, normalizeClient (normalizeClient c) = normalizeClient c).
  { intros [i n e p co no cr [[|]|] tb]; reflexivity. }
  split; [exact H|].
  intros cs. rewrite map_map. apply map_ext. exact H.
Qed.

(** ** Per-client dues and the total outstanding *)










(** ** Filtered reports *)

Section SortFacts.
Context {A : Type} (after : A -> A -> bool).

Lemma sort_insert_perm (x : A) (l : list A) :
  Permutation (x :: l) (sort_insert after x l).
Proof.
  induction l as [|y l IH]; simpl; [reflexivity|].
  destruct (after x y); [|reflexivity].
  rewrite perm_swap. now apply perm_skip.
Qed.

Lemma sortBy_perm (l : list A) : Permutation l (sortBy after l).
Proof.
  induction l as [|x l IH]; simpl; [constructor|].
  rewrite <- sort_insert_perm. now apply perm_skip.
Qed.

End SortFacts.






(** C6: for every report, the debit column of the totals row (of the CSV
    export and of the table footer alike) is the total of the refunds of
    the report plus the total of its expenses when the method filter is ALL,
    and the total of the refunds alone when it is not; the credit column
    is the total received. *)
Theorem totals_row (localeCompare : string -> string -> Z)
    (data : AppData) (f : Filters) :
  let r := reportData localeCompare data f in
  let refunds :=
    total (map Payment.amount (List.filter (fun p => isRefund p) (Report.payments r))) in
  let received :=
    total (map Payment.amount
             (List.filter (fun p => negb (isRefund p)) (Report.payments r))) in
  let spent := total (map Expense.amount (Report.expenses r)) in
  (methodFilter f = "ALL" ->
     debit (csvTotalsRow r f) = refunds + spent
     /\ debit (tfootTotals r f) = refunds + spent)
  /\ (methodFilter f <> "ALL" ->
     debit (csvTotalsRow r f) = refunds
     /\ debit (tfootTotals r f) = refunds)
  /\ credit (csvTotalsRow r f) = received
  /\ credit (tfootTotals r f) = received.
Proof.
  intros r refunds received spent.
  assert (Hr : Report.totalRefunded r = refunds).
  { unfold r, reportData. simpl. apply sumBy_total. }
  assert (Hc : Report.totalReceived r = received).
  { unfold r, reportData. simpl. apply sumBy_total. }
  assert (He : Report.totalExpenses r = spent).
  { unfold r, reportData. simpl. apply sumBy_total. }
  unfold csvTotalsRow, tfootTotals, debit, credit. rewrite Hr, Hc, He.
  split; [|split; [|split; reflexivity]].
  - intros H. apply String.eqb_eq in H. rewrite H. split; reflexivity.
  - intros H. apply String.eqb_neq in H. rewrite H. split; lia.
Qed.

(** On the ledger of client C: with every method the debit total is the
    refund plus the rent, with the Cash filter it is the refunds of the
    Cash payments alone. *)
Lemma totals_row_witness :
  debit (csvTotalsRow (reportData codeUnitCompare ledgerC january) january) = 100 + 250
  /\ debit (tfootTotals (reportData codeUnitCompare ledgerC january) january) = 100 + 250
  /\ debit (csvTotalsRow (reportData codeUnitCompare ledgerC januaryInCash) januaryInCash)
     = 100
  /\ credit (csvTotalsRow (reportData codeUnitCompare ledgerC januaryInCash) januaryInCash)
     = 400.
Proof.
  destruct (totals_row codeUnitCompare ledgerC january) as (Hall & _ & _ & _).
  destruct (totals_row codeUnitCompare ledgerC januaryInCash) as (_ & Hcash & Hcredit & _).
  destruct Hall as [H1 H2]; [reflexivity|].
  destruct Hcash as [H3 _]; [simpl; discriminate|].
  split; [exact H1 | split; [exact H2 | split; [exact H3 | exact Hcredit]]].
Defined.

(** ** Bulk operations on the remote backend *)

Lemma getSupabaseClient_run (w : World) :
  getSupabaseClient w = (Returned (remoteBackend w), w).
Proof. reflexivity. Qed.

(** C10: on the remote backend [clearData] sends the delete of payments,
    then of expenses, then of clients, all three whatever the earlier ones
    answer, and raises one error afterwards if any of the three failed;
    [importData] stops at the first failing upsert instead. *)
Theorem clearData_attempts_all (w : World) :
  remoteBackend w = true ->
  let log1 := requests w ++ [DeleteNeq paymentsT dataService.zeroId] in
  let log2 := log1 ++ [DeleteNeq expensesT dataService.zeroId] in
  let log3 := log2 ++ [DeleteNeq clientsT dataService.zeroId] in
  let failed := dataService.isError (cloud w log1)
                || dataService.isError (cloud w log2)
                || dataService.isError (cloud w log3) in
  requests (exec dataService.clearData w) = log3
  /\ outcome dataService.clearData w
     = (if failed
        then Thrown (mkError "Failed to clear some cloud data. Check RLS.")
        else Returned tt)
  /\ (forall (newData : loc) (c : Client.t) (cs : list Client.t) (error : Error),
        readClients (heap w) (clientsRef (readObject (heap w) newData)) = c :: cs ->
        replyError (cloud w (requests w ++ [Upsert clientsT (ClientRows (c :: cs))]))
        = Some error ->
        requests (exec (dataService.importData newData) w)
        = requests w ++ [Upsert clientsT (ClientRows (c :: cs))]
        /\ outcome (dataService.importData newData) w = Thrown error).
Proof.
  intros Hremote log1 log2 log3 failed.
  split; [|split].
  - unfold exec, dataService.clearData, bind.
    rewrite getSupabaseClient_run, Hremote. simpl.
    destruct (_ || _ || _); reflexivity.
  - unfold outcome, dataService.clearData, bind.
    rewrite getSupabaseClient_run, Hremote. simpl.
    fold log1. fold log2. fold log3. fold failed.
    destruct failed; reflexivity.
  - intros newData c cs error Hcs Herr.
    unfold exec, outcome, dataService.importData, bind.
    rewrite getSupabaseClient_run, Hremote. simpl.
    rewrite Hcs. simpl. unfold dataService.upsertIfAny, bind, request. simpl.
    unfold throwIfError. rewrite Herr. split; reflexivity.
Qed.

(** ** Symbolic execution of the computations *)

Ltac js_unfold :=
  unfold exec, outcome, ledger, handler, persist,
    App.addClient, App.updateClient, App.addPayment, App.updatePayment,
    App.deletePayment, App.addExpense, App.deleteExpense,
    App.importFile, App.importData, App.clearData, App.loadData,
    App.rollback, App.setDataWith,
    dataService.addClient, dataService.updateClient, dataService.addPayment,
    dataService.updatePayment, dataService.deletePayment, dataService.addExpense,
    dataService.deleteExpense,
    dataService.importData, dataService.upsertIfAny, dataService.clearData,
    dataService.fetchData, dataService.getLocalData, dataService.saveLocalData,
    dataService.normalizeLocal,
    JSON_parse, JSON_stringify, getItem, setItem, removeItem, allocData, spread,
    readC, readP, readE, readO, setData, setHasConnectionError, alert, request,
    throwIfError, getSupabaseClient, store, alloc, tryCatch, bind, ret, throw,
    gets, modify in *.

Ltac len :=
  repeat first [rewrite length_app | rewrite length_insert]; simpl; lia.

Ltac heap_unfold :=
  unfold deref, readObject, readClients, readPayments, readExpenses, DEFAULT_DATA in *.

Ltac heap_step :=
  match goal with
  | |- context [(?l ++ ?x :: ?r) !! ?n] => rewrite (list_lookup_middle l r x n) by len
  | |- context [(?l ++ ?r) !! ?n] => rewrite (lookup_app_l l r n) by len
  | |- context [<[?i := ?x]> ?l !! ?i] => rewrite (list_lookup_insert_eq l i x) by len
  | |- context [<[?i := ?x]> ?l !! ?j] => rewrite (list_lookup_insert_ne l i j x) by len
  | H : ?l !! ?i = Some _ |- context [?l !! ?i] => rewrite H
  end.

Ltac js_case :=
  match goal with
  | H : ?c = _ |- context [if ?c then _ else _] => rewrite H
  | H : ?x = _ |- context [match ?x with Some _ => _ | None => _ end] => rewrite H
  | |- context [match replyError ?r with _ => _ end] => destruct (replyError r) eqn:?
  | |- context [match ?x with Json _ => _ | Malformed => _ end] => is_var x; destruct x
  | |- context [match ?x with Some _ => _ | None => _ end] => is_var x; destruct x
  | |- context [if ?b then _ else _] => is_var b; destruct b
  | |- context [if truthy ?u && truthy ?k then _ else _] =>
      destruct (truthy u && truthy k) eqn:?
  | |- context [if dataService.isNil ?l then _ else _] =>
      destruct (dataService.isNil l) eqn:?
  | |- context [if ?b then _ else _] => destruct b eqn:?
  end.

Lemma log_assoc (log a b : list Query) : (log ++ a) ++ b = log ++ (a ++ b).
Proof. symmetry. apply app_assoc. Qed.

(** Runs a computation on a world whose fields are variables. *)
Ltac js_run :=
  js_unfold; heap_unfold; cbn; rewrite ?log_assoc; cbn;
  repeat (first [heap_step | js_case | progress heap_unfold];
          cbn; rewrite ?log_assoc; cbn).

(** ** Loading the ledger from the remote backend *)




(** ** Importing a ledger *)

(** C5, as the specification states it, fails on the remote backend: the
    import of the empty payload succeeds, and the Ledger Store then holds
    the ledger of the backend, which is not empty. *)
Lemma import_empty_keeps_the_remote_ledger :
  remoteBackend pageOverRemoteLedgerC = true
  /\ alerts (exec (App.importFile emptyData) pageOverRemoteLedgerC) = []
  /\ ledger (exec (App.importFile emptyData) pageOverRemoteLedgerC)
     = normalizeLedger ledgerC
  /\ ledger (exec (App.importFile emptyData) pageOverRemoteLedgerC) <> emptyData.
Proof. repeat split. discriminate. Qed.

(** C5, amended: importing the payload [{clients:[], payments:[],
    expenses:[]}] succeeds on both backends (on the local one when local
    storage accepts the write).  On the local backend the stored ledger and
    the Ledger Store are empty afterwards.  On the remote backend nothing is
    upserted: the only requests are the three fetches of the reload, and
    the Ledger Store becomes the ledger they return, clients normalised. *)
Theorem import_empty_payload (w : World) :
  (remoteBackend w = false -> quotaExceeded w = false ->
     alerts (exec (App.importFile emptyData) w) = alerts w
     /\ stored (exec (App.importFile emptyData) w) = Some (Json emptyData)
     /\ hasConnectionError (exec (App.importFile emptyData) w) = false
     /\ ledger (exec (App.importFile emptyData) w) = emptyData)
  /\ (remoteBackend w = true ->
     outcome (bind (allocData emptyData) dataService.importData) w = Returned tt
     /\ requests (exec (App.importFile emptyData) w) = fetchLog w 3
     /\ (fetchFailed w = false ->
         alerts (exec (App.importFile emptyData) w) = alerts w
         /\ hasConnectionError (exec (App.importFile emptyData) w) = false
         /\ ledger (exec (App.importFile emptyData) w) = remoteLedger w)).
Proof.
  destruct w as [[ca pa ea ob] st q u k cl rq al d hc].
  unfold remoteBackend, fetchFailed, remoteLedger, fetchLog, dataService.isError.
  cbn. split.
  - intros Hlocal ->. js_run. repeat split.
  - intros Hremote. js_run.
    all: repeat split; (discriminate || reflexivity).
Qed.

Lemma import_empty_payload_witness :
  ledger (exec (App.importFile emptyData) pageShowingLedgerC) = emptyData
  /\ stored (exec (App.importFile emptyData) pageShowingLedgerC) = Some (Json emptyData)
  /\ requests (exec (App.importFile emptyData) pageOverRemoteLedgerC)
     = [Select clientsT; Select paymentsT; Select expensesT]
  /\ ledger (exec (App.importFile emptyData) pageOverRemoteLedgerC)
     = remoteLedger pageOverRemoteLedgerC.
Proof.
  destruct (import_empty_payload pageShowingLedgerC) as [Hlocal _].
  destruct (import_empty_payload pageOverRemoteLedgerC) as [_ Hremote].
  destruct Hlocal as (_ & Hs & _ & Hl); [reflexivity | reflexivity |].
  destruct Hremote as (_ & Hr & Hok); [reflexivity|].
  destruct Hok as (_ & _ & Hl'); [reflexivity|].
  split; [exact Hl | split; [exact Hs | split; [exact Hr | exact Hl']]].
Defined.

(** ** Well-formedness of the reachable states *)

Ltac valid_tac :=
  unfold validObject; cbn;
  repeat match goal with
  | |- _ /\ _ => split
  | |- exists _, _ => eexists
  end;
  repeat (heap_step; cbn); try reflexivity; try len.

Lemma initialWorld_wellFormed stored quotaExceeded sb_url sb_key cloud :
  wellFormed (initialWorld stored quotaExceeded sb_url sb_key cloud).
Proof. split; (eexists; split; [reflexivity | simpl; lia]). Qed.

(** Every event keeps the references of the [data] state and of
    [DEFAULT_DATA] inside the heap. *)
Lemma event_wellFormed (e : Event) (w : World) :
  wellFormed w -> wellFormed (exec (react e) w).
Proof.
  intros [(v0 & Hv0 & Hc0 & Hp0 & He0) (v & Hv & Hc & Hp & He)].
  destruct w as [[ca pa ea ob] st q u k cl rq al d hc].
  cbn in *.
  assert (Hlen : (0 < length ob)%nat) by (apply lookup_lt_Some in Hv0; exact Hv0).
  assert (Hd : (d < length ob)%nat) by (apply lookup_lt_Some in Hv; exact Hv).
  unfold wellFormed.
  destruct e; cbn [react].
  - js_run. all: valid_tac.
  - destruct m; js_run. all: valid_tac.
  - js_run. all: valid_tac.
  - js_run. all: valid_tac.
  - unfold ReportsView.render, ReportsView.clients. js_run. all: valid_tac.
Qed.

Lemma reachable_wellFormed (w : World) : reachable w -> wellFormed w.
Proof.
  induction 1 as [| e w _ IH | w w' _ IH [Hh Hd]].
  - apply initialWorld_wellFormed.
  - apply event_wellFormed. exact IH.
  - unfold wellFormed in *. rewrite Hh, Hd. exact IH.
Qed.

(** ** Updates of an unknown id *)

Lemma map_replace_absent {A} (key : A -> string) (x : A) (l : list A) :
  (forall y, In y l -> key y <> key x) ->
  map (fun y => if String.eqb (key y) (key x) then x else y) l = l.
Proof.
  induction l as [|y l IH]; intros H; simpl; [reflexivity|].
  rewrite IH by (intros z Hz; apply H; now right).
  destruct (String.eqb_spec (key y) (key x)) as [E|E]; [|reflexivity].
  exfalso. apply (H y); [now left | exact E].
Qed.

(** The persistence calls change neither the arrays and objects that exist
    when they start ([DEFAULT_DATA] apart) nor the state of [App], unless
    they push onto an array of [DEFAULT_DATA]. *)
Ltac ds_unfold :=
  unfold persist,
    dataService.addClient, dataService.updateClient, dataService.addPayment,
    dataService.updatePayment, dataService.deletePayment, dataService.addExpense,
    dataService.deleteExpense,
    dataService.getLocalData, dataService.saveLocalData,
    JSON_parse, JSON_stringify, getItem, setItem, removeItem, allocData, spread,
    readC, readP, readE, readO, setData, alert, request,
    throwIfError, getSupabaseClient, store, alloc, tryCatch, bind, ret, throw,
    gets, modify in *.

Ltac keeps_tac :=
  repeat split; try reflexivity;
  intros; cbn;
  repeat first
    [ rewrite lookup_app_l by len
    | rewrite list_lookup_insert_ne by lia ];
  reflexivity.

Lemma persist_keeps (m : Mutation) (w : World) :
  ~ pushesOnDefaultData m w ->
  keeps (heap w) (heap (exec (persist m) w))
  /\ data (exec (persist m) w) = data w
  /\ alerts (exec (persist m) w) = alerts w.
Proof.
  intros Hsafe.
  destruct w as [[ca pa ea ob] st q u k cl rq al d hc].
  unfold pushesOnDefaultData, remoteBackend, keeps, exec in *. cbn in *.
  destruct m; ds_unfold; cbn.
  all: destruct (truthy u && truthy k) eqn:Hb; cbn.
  all: repeat (js_case; cbn).
  all: try (exfalso; apply Hsafe; repeat split; fail).
  all: heap_unfold; cbn; repeat (heap_step; cbn).
  all: keeps_tac.
Qed.

Lemma keeps_deref (h h' : Heap) (o : nat) :
  keeps h h' -> validObject h o -> (0 < o)%nat -> deref h' o = deref h o.
Proof.
  intros (Hc & Hp & He & Ho) (v & Hv & Hvc & Hvp & Hve) Hpos.
  unfold deref, readObject, readClients, readPayments, readExpenses.
  rewrite Ho by (split; [exact Hpos | apply lookup_lt_Some in Hv; exact Hv]).
  rewrite Hv. cbn. rewrite Hc, Hp, He by assumption. reflexivity.
Qed.

Ltac app_unfold :=
  unfold handler,
    App.addClient, App.updateClient, App.addPayment, App.updatePayment,
    App.deletePayment, App.addExpense, App.deleteExpense,
    App.rollback, App.setDataWith, spread,
    readC, readP, readE, readO, setData, alert, store, alloc, tryCatch, bind, ret,
    gets, modify in *.

Ltac split_at_persist :=
  match goal with
  | |- context [dataService.addClient ?x ?W] =>
      instantiate (1 := W); destruct (dataService.addClient x W) as [[|] ?]
  | |- context [dataService.updateClient ?x ?W] =>
      instantiate (1 := W); destruct (dataService.updateClient x W) as [[|] ?]
  | |- context [dataService.addPayment ?x ?W] =>
      instantiate (1 := W); destruct (dataService.addPayment x W) as [[|] ?]
  | |- context [dataService.updatePayment ?x ?W] =>
      instantiate (1 := W); destruct (dataService.updatePayment x W) as [[|] ?]
  | |- context [dataService.deletePayment ?x ?W] =>
      instantiate (1 := W); destruct (dataService.deletePayment x W) as [[|] ?]
  | |- context [dataService.addExpense ?x ?W] =>
      instantiate (1 := W); destruct (dataService.addExpense x W) as [[|] ?]
  | |- context [dataService.deleteExpense ?x ?W] =>
      instantiate (1 := W); destruct (dataService.deleteExpense x W) as [[|] ?]
  end.

(** A handler, run from a well-formed state, reaches a world [w1] that
    holds the snapshot [prevData] (the ledger as it was) and the new state
    (the ledger the mutation asks for); it then runs the persistence call
    and, if that call throws, shows the message and puts [prevData] back. *)
Lemma handler_run (m : Mutation) (w : World) :
  wellFormed w ->
  exists w1 : World,
    let prevData := length (objects (heap w)) in
    exec (handler m) w
    = (match persist m w1 with
       | (Returned _, w2) => w2
       | (Thrown e, w2) =>
           with_data prevData (with_alerts (alerts w2 ++ [message e]) w2)
       end)
    /\ validObject (heap w1) prevData
    /\ deref (heap w1) prevData = ledger w
    /\ validObject (heap w1) (data w1)
    /\ deref (heap w1) (data w1) = applyMutation m (ledger w)
    /\ (0 < prevData < data w1)%nat
    /\ alerts w1 = alerts w
    /\ stored w1 = stored w
    /\ remoteBackend w1 = remoteBackend w.
Proof.
  intros [(v0 & Hv0 & Hc0 & Hp0 & He0) (v & Hv & Hc & Hp & He)].
  destruct w as [[ca pa ea ob] st q u k cl rq al d hc].
  cbn in *.
  assert (Hlen : (0 < length ob)%nat) by (apply lookup_lt_Some in Hv0; exact Hv0).
  assert (Hd : (d < length ob)%nat) by (apply lookup_lt_Some in Hv; exact Hv).
  destruct m; cbn [handler persist]; eexists.
  all: split;
    [ unfold exec; app_unfold;
      with_strategy opaque
        [dataService.addClient dataService.updateClient dataService.addPayment
         dataService.updatePayment dataService.deletePayment dataService.addExpense
         dataService.deleteExpense] cbn;
      split_at_persist; reflexivity
    | ].
  all: unfold validObject, ledger, remoteBackend, applyMutation; heap_unfold; cbn;
       repeat (heap_step; cbn).
  all: repeat match goal with
       | |- _ /\ _ => split
       | |- exists _, _ => eexists
       end; try reflexivity; try len.
  all: repeat (heap_step; cbn); try reflexivity; try len.
Qed.

(** A handler ends in one of two states: the ledger the mutation asks for,
    no message shown; or, a message shown, the ledger exactly as it was. *)
Lemma handler_applies_or_restores (m : Mutation) (w : World) :
  wellFormed w ->
  ~ pushesOnDefaultData m w ->
  (ledger (exec (handler m) w) = applyMutation m (ledger w)
   /\ alerts (exec (handler m) w) = alerts w)
  \/ (ledger (exec (handler m) w) = ledger w
      /\ exists msg, alerts (exec (handler m) w) = alerts w ++ [msg]).
Proof.
  intros Hwf Hsafe.
  destruct (handler_run m w Hwf)
    as (w1 & Hrun & Hvp & Hdp & Hvd & Hdd & Hpos & Hal & Hst & Hrb).
  cbn zeta in *.
  assert (Hsafe1 : ~ pushesOnDefaultData m w1).
  { unfold pushesOnDefaultData in *. rewrite Hst, Hrb. exact Hsafe. }
  destruct (persist_keeps m w1 Hsafe1) as (Hk & Hd & Ha).
  rewrite Hrun. unfold exec in Hk, Hd, Ha.
  destruct (persist m w1) as [[|e] w2]; cbn in *.
  - left. unfold ledger. rewrite Hd, Ha, Hal.
    rewrite (keeps_deref _ _ _ Hk Hvd) by lia. split; [exact Hdd | reflexivity].
  - right. unfold ledger. cbn.
    rewrite (keeps_deref _ _ _ Hk Hvp) by lia. rewrite Ha, Hal.
    split; [exact Hdp | eexists; reflexivity].
Qed.

(** C9: for every state a page can reach and every client (payment) whose
    id does not occur among the clients (payments) of the Ledger Store,
    [updateClient] ([updatePayment]) leaves the Ledger Store exactly as it
    was, on either backend and whether the persistence call succeeds or
    fails. *)
Theorem update_unknown_id_is_noop (w : World) :
  reachable w ->
  (forall c : Client.t,
     (forall c', In c' (clients (ledger w)) -> Client.id c' <> Client.id c) ->
     ledger (exec (App.updateClient c) w) = ledger w)
  /\ (forall p : Payment.t,
        (forall p', In p' (payments (ledger w)) -> Payment.id p' <> Payment.id p) ->
        ledger (exec (App.updatePayment p) w) = ledger w).
Proof.
  intros Hwf%reachable_wellFormed. split.
  - intros c Hfresh.
    destruct (handler_applies_or_restores (UpdateClient c) w Hwf) as [[H _]|[H _]].
    + intros (_ & _ & []).
    + cbn [handler] in H. rewrite H. unfold applyMutation.
      rewrite (map_replace_absent Client.id c _ Hfresh).
      destruct (ledger w); reflexivity.
    + exact H.
  - intros p Hfresh.
    destruct (handler_applies_or_restores (UpdatePayment p) w Hwf) as [[H _]|[H _]].
    + intros (_ & _ & []).
    + cbn [handler] in H. rewrite H. unfold applyMutation.
      rewrite (map_replace_absent Payment.id p _ Hfresh).
      destruct (ledger w); reflexivity.
    + exact H.
Qed.

Lemma update_unknown_id_is_noop_witness :
  ledger (exec (App.updateClient strangerClient) pageShowingLedgerC)
  = ledger pageShowingLedgerC
  /\ ledger (exec (App.updatePayment strangerPayment) pageShowingLedgerC)
     = ledger pageShowingLedgerC.
Proof.
  destruct (update_unknown_id_is_noop pageShowingLedgerC) as [Hc Hp].
  - apply (reach_event Load). apply reach_start.
  - split.
    + apply Hc. simpl. intros c' [<-|[]]. simpl. discriminate.
    + apply Hp. simpl. intros p' [<-|[<-|[]]]; simpl; discriminate.
Defined.

Lemma clearData_attempts_all_witness :
  requests (exec dataService.clearData pageDenyingPayments)
  = [DeleteNeq paymentsT dataService.zeroId;
     DeleteNeq expensesT dataService.zeroId;
     DeleteNeq clientsT dataService.zeroId]
  /\ outcome dataService.clearData pageDenyingPayments
     = Thrown (mkError "Failed to clear some cloud data. Check RLS.").
Proof.
  destruct (clearData_attempts_all pageDenyingPayments) as (Hlog & Hout & _).
  - reflexivity.
  - split; [exact Hlog | exact Hout].
Defined.

(** ** Rollback of a failed mutation *)

(** C1 fails on a page of the local backend that loaded while nothing was
    stored: its Ledger Store is [DEFAULT_DATA] itself, the persistence calls
    of the additions push onto the arrays of [DEFAULT_DATA], which the
    snapshot shares, and when local storage then refuses the write the
    rollback puts back a ledger that holds the new item.  Here the Ledger
    Store is empty before [addPayment], [addClient] and [addExpense], the
    persistence call fails (its message is shown), and the Ledger Store holds
    the payment, the client or the expense afterwards. *)
Theorem rollback_keeps_the_pushed_item :
  reachable pageWithoutStorage
  /\ ledger pageWithoutStorage = emptyData
  /\ alerts (exec (App.addPayment received400) pageWithoutStorage)
     = ["The quota has been exceeded."]
  /\ ledger (exec (App.addPayment received400) pageWithoutStorage)
     = mkAppData [] [received400] []
  /\ ledger (exec (App.addClient clientC) pageWithoutStorage)
     = mkAppData [clientC] [] []
  /\ ledger (exec (App.addExpense rent) pageWithoutStorage)
     = mkAppData [] [] [rent].
Proof.
  split; [|repeat split].
  apply (reach_event Load). apply reach_start.
Qed.

(** Apart from that case the rollback is exact: for every mutation run from
    a well-formed state, if a message is shown (the persistence call failed)
    the Ledger Store is the one the mutation started from. *)
Lemma rollback_restores_the_ledger (m : Mutation) (w : World) :
  wellFormed w ->
  ~ pushesOnDefaultData m w ->
  alerts (exec (handler m) w) <> alerts w ->
  ledger (exec (handler m) w) = ledger w.
Proof.
  intros Hwf Hsafe Hshown.
  destruct (handler_applies_or_restores m w Hwf Hsafe) as [[_ H]|[H _]].
  - contradiction.
  - exact H.
Qed.

(** ** Aggregation and the snapshot *)

(** C8 fails for the reports view: computing its client list sorts the
    [clients] array of the snapshot in place.  On a page showing Bob then
    Alice, one render of the view leaves the Ledger Store showing Alice
    then Bob. *)
Theorem reports_view_reorders_the_clients :
  clients (ledger pageShowingBobAndAlice) = [bob; alice]
  /\ clients (ledger (exec (ReportsView.render codeUnitCompare
                              (data pageShowingBobAndAlice) january)
                           pageShowingBobAndAlice))
     = [alice; bob].
Proof. split; reflexivity. Qed.

(** The view changes nothing else: the payments and the expenses of the
    snapshot are left as they were, and its clients are the same up to
    their order. *)
Lemma reports_view_permutes_the_clients
    (localeCompare : string -> string -> Z) (f : Filters) (w : World) :
  wellFormed w ->
  let w' := exec (ReportsView.render localeCompare (data w) f) w in
  Permutation (clients (ledger w)) (clients (ledger w'))
  /\ payments (ledger w') = payments (ledger w)
  /\ expenses (ledger w') = expenses (ledger w).
Proof.
  intros [_ (v & Hv & Hc & Hp & He)].
  destruct w as [[ca pa ea ob] st q u k cl rq al d hc].
  cbn in *.
  unfold exec, ledger, ReportsView.render, ReportsView.clients,
    readC, readO, store, bind, ret, gets, modify.
  heap_unfold. cbn. rewrite Hv. cbn.
  rewrite list_lookup_insert_eq by exact Hc. cbn.
  split; [apply sortBy_perm | split; reflexivity].
Qed.
